(** * fmriprep.workflows.bold.reference: the raw BOLD reference workflow

    A shallow embedding of [init_raw_boldref_wf]
    (src/fmriprep/workflows/bold/reference.py): the nodes it creates, the
    wiring list it hands to [Workflow.connect], and the description string
    it attaches to the workflow.  The engine pieces that live outside that
    file (the name check, the connect checks, the value transfer along
    edges, the function wrapped by the [calc_dummy_scans] node) are marked
    as such where they are defined. *)

From Stdlib Require Import String Ascii List ZArith QArith Bool Lia.
Import ListNotations.
Local Open Scope string_scope.
Local Open Scope Z_scope.

(** ** Errors and the error monad *)

Inductive Error : Type :=
| UnknownPortError
| PortAlreadyBoundError
| CycleError
| InvalidSkipCountError
| ValueError
| CollaboratorError
| EngineError.

Definition result (A : Type) : Type := (Error + A)%type.

Definition ok {A : Type} (a : A) : result A := inr a.
Definition raise {A : Type} (e : Error) : result A := inl e.

Definition bind {A B : Type} (c : result A) (k : A -> result B) : result B :=
  match c with
  | inl e => inl e
  | inr a => k a
  end.

Notation "x <- c ;; k" := (bind c (fun x => k))
  (at level 61, c at next level, right associativity).

(** ** Data model: values, interfaces, nodes, edges, workflows *)

(** Values carried by ports: [VNone] is Python's [None] (also what an unset
    trait reads as), the others are an int, a path and a volume mask. *)
Inductive Value : Type :=
| VNone
| VInt (z : Z)
| VStr (s : string)
| VMask (m : list bool).

(** The interfaces instantiated in reference.py. *)
Inductive Interface : Type :=
| IdentityInterface (fields : list string)
| Function (function : string) (output_names : list string)
| ValidateImage
| NonsteadyStatesDetector
| RobustAverage.

(** [pe.Node(interface, name=..., mem_gb=..., run_without_submitting=...)];
    [mem_gb = None] stands for a keyword that was not passed. *)
Record Node : Type := mkNode {
  node_name : string;
  interface : Interface;
  inputs : list (string * Value);
  mem_gb : option Q;
  run_without_submitting : bool
}.

Record Edge : Type := mkEdge {
  source_node : string;
  source_port : string;
  target_node : string;
  target_port : string
}.

Record Workflow : Type := mkWorkflow {
  wf_name : string;
  desc : string;
  nodes : list Node;
  edges : list Edge
}.

Definition DEFAULT_MEMORY_MIN_GB : Q := 1 # 100.

Definition new_node (i : Interface) (name : string) (mem : option Q)
  (rws : bool) : Node :=
  mkNode name i [] mem rws.

(** [node.inputs.port = v] *)
Definition set_node_input (n : Node) (port : string) (v : Value) : Node :=
  mkNode (node_name n) (interface n)
    ((port, v) :: filter (fun kv => negb (fst kv =? port)%string) (inputs n))
    (mem_gb n) (run_without_submitting n).

(** The characters a workflow or node name may hold: letters, digits,
    underscore and hyphen. *)
Definition name_char (c : ascii) : bool :=
  let n := nat_of_ascii c in
  if ((48 <=? n) && (n <=? 57))%nat then true
  else if ((65 <=? n) && (n <=? 90))%nat then true
  else if ((97 <=? n) && (n <=? 122))%nat then true
  else if (n =? 95)%nat then true
  else (n =? 45)%nat.

Fixpoint all_name_chars (s : string) : bool :=
  match s with
  | EmptyString => true
  | String c rest => if name_char c then all_name_chars rest else false
  end.

(** The check [Workflow(name=...)] and [pe.Node(..., name=...)] make, which
    is nipype's and not part of reference.py: a name is refused when it is
    empty or holds a character other than a letter, a digit, an underscore
    or a hyphen.  Names are read as ASCII here, and the check is kept on
    the strict side: the properties below are stated for names it accepts
    and say nothing of the others. *)
Definition valid_name (name : string) : bool :=
  match name with
  | EmptyString => false
  | String _ _ => all_name_chars name
  end.

(** [Workflow(name=name)]: raises [ValueError] on a refused name. *)
Definition new_workflow (name : string) : result Workflow :=
  if valid_name name then ok (mkWorkflow name "" [] [])
  else raise ValueError.

Definition set_desc (wf : Workflow) (d : string) : Workflow :=
  mkWorkflow (wf_name wf) d (nodes wf) (edges wf).

(** Python's [s * b] for a string and a bool: [s] once or the empty string. *)
Definition str_times_bool (s : string) (b : bool) : string :=
  if b then s else "".

Definition nl : string := String (ascii_of_nat 10) EmptyString.

(** ** Ports declared in this file

    [IdentityInterface(fields=...)] declares the same names as inputs and
    outputs; [Function(..., output_names=...)] declares its outputs.  The
    traits of the niworkflows interfaces are declared outside this file and
    are not checked here ([None]). *)

Definition declared_inputs (i : Interface) : option (list string) :=
  match i with
  | IdentityInterface fields => Some fields
  | _ => None
  end.

Definition declared_outputs (i : Interface) : option (list string) :=
  match i with
  | IdentityInterface fields => Some fields
  | Function _ output_names => Some output_names
  | _ => None
  end.

Definition mem_str (s : string) (l : list string) : bool :=
  existsb (String.eqb s) l.

Definition port_known (decl : option (list string)) (p : string) : bool :=
  match decl with
  | Some l => mem_str p l
  | None => true
  end.

(** ** Graph builder *)

Definition find_node (ns : list Node) (name : string) : option Node :=
  find (fun n => (node_name n =? name)%string) ns.

Definition add_node (ns : list Node) (n : Node) : list Node :=
  match find_node ns (node_name n) with
  | Some _ => ns
  | None => ns ++ [n]
  end.

Definition targets (e : Edge) (n p : string) : bool :=
  ((target_node e =? n) && (target_port e =? p))%string.

Definition incoming (es : list Edge) (n p : string) : list Edge :=
  filter (fun e => targets e n p) es.

Definition lookup_input (n : Node) (p : string) : option Value :=
  option_map snd (find (fun kv => (fst kv =? p)%string) (inputs n)).

(** A target input is bound when an edge already ends there or the node
    carries a preset value for it. *)
Definition bound (es : list Edge) (dst : Node) (p : string) : bool :=
  match incoming es (node_name dst) p, lookup_input dst p with
  | [], None => false
  | _, _ => true
  end.

(** Bounded search for a directed path of edges from [a] to [b]. *)
Fixpoint reachable (fuel : nat) (es : list Edge) (a b : string) : bool :=
  if (a =? b)%string then true
  else
    match fuel with
    | O => false
    | S k =>
        existsb (fun e => if (source_node e =? a)%string
                          then reachable k es (target_node e) b
                          else false) es
    end.

(** Modelled from the spec: [Workflow.connect] is nipype's and is not part of
    reference.py; section 4.2 gives its contract: it fails with
    [UnknownPortError] when a field is not declared on its node, with
    [PortAlreadyBoundError] when the target field already has an edge or a
    preset value, with [CycleError] when the target already reaches the
    source, and otherwise records the edge without evaluating anything. *)
Definition connect_field (wf : Workflow) (src dst : Node)
  (sp tp : string) : result Workflow :=
  if negb (port_known (declared_outputs (interface src)) sp
           && port_known (declared_inputs (interface dst)) tp)
  then raise UnknownPortError
  else if bound (edges wf) dst tp then raise PortAlreadyBoundError
  else if reachable (S (length (edges wf))) (edges wf)
            (node_name dst) (node_name src)
  then raise CycleError
  else ok (mkWorkflow (wf_name wf) (desc wf)
             (add_node (add_node (nodes wf) src) dst)
             (edges wf ++ [mkEdge (node_name src) sp (node_name dst) tp])).

Fixpoint connect_fields (wf : Workflow) (src dst : Node)
  (fs : list (string * string)) : result Workflow :=
  match fs with
  | [] => ok wf
  | (sp, tp) :: rest =>
      wf' <- connect_field wf src dst sp tp ;;
      connect_fields wf' src dst rest
  end.

(** [workflow.connect([(src, dst, [(out, in), ...]), ...])] *)
Fixpoint connect (wf : Workflow)
  (cs : list (Node * Node * list (string * string))) : result Workflow :=
  match cs with
  | [] => ok wf
  | (src, dst, fs) :: rest =>
      wf' <- connect_fields wf src dst fs ;;
      connect wf' rest
  end.

(** ** The workflow of reference.py *)

Definition default_name : string := "raw_boldref_wf".

(** The [__desc__] f-string. *)
Definition description (multiecho : bool) : string :=
  "First, a reference volume was generated"
  ++ str_times_bool " from the shortest echo of the BOLD run" multiecho
  ++ "," ++ nl
  ++ "using a custom methodology of *fMRIPrep*, for use in head motion correction."
  ++ nl.

(** The nodes the function creates, under the names of its local variables;
    [inputnode] receives [bold_file] when the caller passed one. *)
Definition inputnode (bold_file : option string) : Node :=
  let inputnode :=
    new_node (IdentityInterface ["bold_file"; "dummy_scans"])
      "inputnode" None false in
  match bold_file with
  | Some b => set_node_input inputnode "bold_file" (VStr b)
  | None => inputnode
  end.

Definition outputnode : Node :=
  new_node
    (IdentityInterface ["bold_file"; "boldref"; "skip_vols"; "algo_dummy_scans"])
    "outputnode" None false.

Definition val_bold : Node :=
  new_node ValidateImage "val_bold" (Some DEFAULT_MEMORY_MIN_GB) false.

Definition get_dummy : Node :=
  new_node NonsteadyStatesDetector "get_dummy" None false.

Definition gen_avg : Node :=
  new_node RobustAverage "gen_avg" (Some (1 # 1)) false.

Definition calc_dummy_scans : Node :=
  new_node (Function "pass_dummy_scans" ["skip_vols_num"])
    "calc_dummy_scans" (Some DEFAULT_MEMORY_MIN_GB) true.

Definition init_raw_boldref_wf (bold_file : option string) (multiecho : bool)
  (name : string) : result Workflow :=
  workflow <- new_workflow name ;;
  let workflow := set_desc workflow (description multiecho) in
  let inputnode := inputnode bold_file in
  connect workflow
    [ (inputnode, val_bold, [("bold_file", "in_file")]);
      (inputnode, get_dummy, [("bold_file", "in_file")]);
      (inputnode, calc_dummy_scans, [("dummy_scans", "dummy_scans")]);
      (val_bold, gen_avg, [("out_file", "in_file")]);
      (get_dummy, gen_avg, [("t_mask", "t_mask")]);
      (get_dummy, calc_dummy_scans, [("n_dummy", "algo_dummy_scans")]);
      (val_bold, outputnode, [("out_file", "bold_file")]);
      (calc_dummy_scans, outputnode, [("skip_vols_num", "skip_vols")]);
      (gen_avg, outputnode, [("out_file", "boldref")]);
      (get_dummy, outputnode, [("n_dummy", "algo_dummy_scans")]) ].

(** ** The function behind [calc_dummy_scans] *)

(** [pass_dummy_scans(algo_dummy_scans, dummy_scans=None)], imported at
    reference.py:28 from niworkflows.utils.misc, where its body lives: it
    grafts the user's count onto the detected one, returning
    [algo_dummy_scans] when [dummy_scans] is [None] and [dummy_scans]
    otherwise.  Neither it nor the node that wraps it (reference.py:116-121)
    looks at the sign of the count. *)
Definition pass_dummy_scans (algo_dummy_scans : Z) (dummy_scans : option Z)
  : Z :=
  match dummy_scans with
  | None => algo_dummy_scans
  | Some d => d
  end.

(** Modelled from the spec: the reconciliation function of section 4.4 is
    the callable wrapped by [calc_dummy_scans]; the body of that callable
    is not part of reference.py.  A present, non-negative [user_declared]
    is returned unchanged and an absent one yields
    [algorithmically_detected], as section 4.4 says.  For a present,
    negative one sections 4.4 and 7 disagree with each other, and the
    wrapped callable decides: the count is returned as it is. *)
Definition reconcile_skip_volumes (user_declared : option Z)
  (algorithmically_detected : Z) : result Z :=
  ok (pass_dummy_scans algorithmically_detected user_declared).

(** The callables a [Function] node of this file can wrap, by name. *)
Definition wrapped_function (function : string)
  : option (option Z -> Z -> result Z) :=
  if (function =? "pass_dummy_scans")%string
  then Some reconcile_skip_volumes
  else None.

(** ** Running a wired workflow *)

Definition set_input (wf : Workflow) (node port : string) (v : Value)
  : Workflow :=
  mkWorkflow (wf_name wf) (desc wf)
    (map (fun n => if (node_name n =? node)%string
                   then set_node_input n port v else n) (nodes wf))
    (edges wf).

Definition as_user_declared (v : Value) : result (option Z) :=
  match v with
  | VNone => ok None
  | VInt u => ok (Some u)
  | _ => raise CollaboratorError
  end.

Definition as_int (v : Value) : result Z :=
  match v with
  | VInt z => ok z
  | _ => raise CollaboratorError
  end.

Definition as_path (v : Value) : result string :=
  match v with
  | VStr s => ok s
  | _ => raise CollaboratorError
  end.

Definition as_mask (v : Value) : result (list bool) :=
  match v with
  | VMask m => ok m
  | _ => raise CollaboratorError
  end.

Section Engine.

(** The collaborators of section 4.5, whose computations are external:
    the validator maps a series to the validated series, the detector
    yields the dummy count and the stable-volume mask, the averager
    builds the reference from a series and a mask. *)
Variable validator : string -> string.
Variable detector : string -> Z * list bool.
Variable averager : string -> list bool -> string.

(** Modelled from the spec: nodes are run by the external engine.
    Section 4.1: a passthrough output republishes the same-named input,
    a function node applies its function to its bound inputs; section
    4.5 gives the collaborators' shapes, here under the port names the
    wiring of reference.py uses. *)
Definition run_interface (i : Interface) (inp : string -> result Value)
  (p : string) : result Value :=
  match i with
  | IdentityInterface fields =>
      if mem_str p fields then inp p else raise EngineError
  | Function function output_names =>
      match wrapped_function function with
      | Some f =>
          if mem_str p output_names then
            a <- inp "algo_dummy_scans" ;;
            d <- as_int a ;;
            v <- inp "dummy_scans" ;;
            u <- as_user_declared v ;;
            r <- f u d ;;
            ok (VInt r)
          else raise EngineError
      | None => raise EngineError
      end
  | ValidateImage =>
      if (p =? "out_file")%string then
        v <- inp "in_file" ;;
        s <- as_path v ;;
        ok (VStr (validator s))
      else raise EngineError
  | NonsteadyStatesDetector =>
      v <- inp "in_file" ;;
      s <- as_path v ;;
      if (p =? "n_dummy")%string then ok (VInt (fst (detector s)))
      else if (p =? "t_mask")%string then ok (VMask (snd (detector s)))
      else raise EngineError
  | RobustAverage =>
      if (p =? "out_file")%string then
        v <- inp "in_file" ;;
        s <- as_path v ;;
        t <- inp "t_mask" ;;
        m <- as_mask t ;;
        ok (VStr (averager s m))
      else raise EngineError
  end.

(** Modelled from the spec: section 5, each edge transfers the producer's
    value to the consumer; an input without an edge reads its preset
    value, or [None] when it has none.  [fuel] bounds the depth of the
    producers followed. *)
Fixpoint output_value (fuel : nat) (wf : Workflow) (n p : string)
  : result Value :=
  match fuel with
  | O => raise EngineError
  | S k =>
      match find_node (nodes wf) n with
      | None => raise EngineError
      | Some nd =>
          run_interface (interface nd)
            (fun q =>
               match incoming (edges wf) n q with
               | e :: _ => output_value k wf (source_node e) (source_port e)
               | [] =>
                   match lookup_input nd q with
                   | Some v => ok v
                   | None => ok VNone
                   end
               end) p
      end
  end.

(** What the output boundary publishes on port [p]. *)
Definition run (wf : Workflow) (p : string) : result Value :=
  output_value (length (nodes wf)) wf "outputnode" p.

End Engine.

(** ** Graph predicates *)

(** A directed path of one or more edges between two nodes. *)
Inductive path (es : list Edge) : string -> string -> Prop :=
| path_edge : forall e,
    In e es -> path es (source_node e) (target_node e)
| path_step : forall e c,
    In e es -> path es (target_node e) c -> path es (source_node e) c.

Definition computes (i : Interface) : bool :=
  match i with
  | IdentityInterface _ => false
  | _ => true
  end.

Definition target_of (e : Edge) : string * string :=
  (target_node e, target_port e).

Definition outgoing (es : list Edge) (n p : string) : list Edge :=
  filter (fun e => ((source_node e =? n) && (source_port e =? p))%string) es.

(** The input [dummy_scans] is an int or [None]. *)
Definition of_dummy_scans (dummy_scans : option Z) : Value :=
  match dummy_scans with
  | Some z => VInt z
  | None => VNone
  end.

(** The dummy-scan count fed to the input boundary. *)
Definition feed_dummy_scans (wf : Workflow) (dummy_scans : option Z)
  : Workflow :=
  set_input wf "inputnode" "dummy_scans" (of_dummy_scans dummy_scans).

(** Some edge of [wf] carries an output of [producer] into [consumer]. *)
Definition consumes (wf : Workflow) (consumer producer : string) : Prop :=
  exists e, In e (edges wf) /\
            source_node e = producer /\ target_node e = consumer.

(** The reading under which the detector is fed by the validator. *)
Definition detector_consumes_validated (wf : Workflow) : Prop :=
  consumes wf "get_dummy" "val_bold".

(** An edge into port [p] of node [n] whose source lies on a path of edges
    starting at node [a]. *)
Definition port_reachable (wf : Workflow) (a n p : string) : Prop :=
  exists e, In e (edges wf) /\ target_of e = (n, p) /\
            path (edges wf) a (source_node e).

(** Position of a node in an order compatible with the wiring. *)
Definition rank (n : string) : nat :=
  if (n =? "inputnode")%string then 0
  else if (n =? "val_bold")%string then 1
  else if (n =? "get_dummy")%string then 1
  else if (n =? "gen_avg")%string then 2
  else if (n =? "calc_dummy_scans")%string then 2
  else if (n =? "outputnode")%string then 3
  else 0.

(** ** Well-formedness checks on a wired workflow *)

(** Both ends of [e] are nodes of the workflow. *)
Definition endpoints_in (ns : list Node) (e : Edge) : bool :=
  match find_node ns (source_node e), find_node ns (target_node e) with
  | Some _, Some _ => true
  | _, _ => false
  end.

(** Some edge starts or ends at node [n]. *)
Definition node_wired (es : list Edge) (n : string) : bool :=
  existsb (fun e => if (source_node e =? n)%string then true
                    else (target_node e =? n)%string) es.

Definition leaving (es : list Edge) (n : string) : list Edge :=
  filter (fun e => (source_node e =? n)%string) es.

Definition entering (es : list Edge) (n : string) : list Edge :=
  filter (fun e => (target_node e =? n)%string) es.

(** * Properties *)

(** ** Shared facts *)

Definition recorded_edges : list Edge :=
  [ mkEdge "inputnode" "bold_file" "val_bold" "in_file";
    mkEdge "inputnode" "bold_file" "get_dummy" "in_file";
    mkEdge "inputnode" "dummy_scans" "calc_dummy_scans" "dummy_scans";
    mkEdge "val_bold" "out_file" "gen_avg" "in_file";
    mkEdge "get_dummy" "t_mask" "gen_avg" "t_mask";
    mkEdge "get_dummy" "n_dummy" "calc_dummy_scans" "algo_dummy_scans";
    mkEdge "val_bold" "out_file" "outputnode" "bold_file";
    mkEdge "calc_dummy_scans" "skip_vols_num" "outputnode" "skip_vols";
    mkEdge "gen_avg" "out_file" "outputnode" "boldref";
    mkEdge "get_dummy" "n_dummy" "outputnode" "algo_dummy_scans" ].

Definition built (bold_file : option string) (multiecho : bool)
  (name : string) : Workflow :=
  mkWorkflow name (description multiecho)
    [ inputnode bold_file; val_bold; get_dummy; calc_dummy_scans; gen_avg;
      outputnode ]
    recorded_edges.

(** With a name the constructor accepts, construction succeeds: every
    connect check passes on the wiring of reference.py, and the result is
    the six nodes in order of first use with the ten edges in the order
    they are listed. *)
Lemma init_raw_boldref_wf_built (bold_file : option string)
  (multiecho : bool) (name : string)
  (Hname : valid_name name = true) :
  init_raw_boldref_wf bold_file multiecho name
  = inr (built bold_file multiecho name).
Proof.
  unfold init_raw_boldref_wf, new_workflow.
  rewrite Hname.
  destruct bold_file as [b|], multiecho; reflexivity.
Qed.

(** The six literal node names pass the name check. *)
Lemma node_names_valid (bold_file : option string) :
  forallb (fun n => valid_name (node_name n))
    [ inputnode bold_file; val_bold; get_dummy; calc_dummy_scans; gen_avg;
      outputnode ] = true.
Proof.
  destruct bold_file; reflexivity.
Qed.

(** ** Paths, ranks and the bounded search *)

Section Paths.

Variable es : list Edge.

(** A rank that grows along every edge grows along every path. *)
Lemma path_rank (rank : string -> nat) :
  Forall (fun e => (rank (source_node e) < rank (target_node e))%nat) es ->
  forall a b, path es a b -> (rank a < rank b)%nat.
Proof.
  intros Hrank a b Hpath.
  rewrite Forall_forall in Hrank.
  induction Hpath as [e Hin | e c Hin _ IH].
  - now apply Hrank.
  - specialize (Hrank e Hin). lia.
Qed.

Lemma ranked_acyclic (rank : string -> nat) :
  Forall (fun e => (rank (source_node e) < rank (target_node e))%nat) es ->
  forall n, ~ path es n n.
Proof.
  intros Hrank n Hpath.
  apply (path_rank rank Hrank) in Hpath. lia.
Qed.

(** The bounded search only finds real paths. *)
Lemma reachable_sound (fuel : nat) :
  forall a b, reachable fuel es a b = true -> a = b \/ path es a b.
Proof.
  induction fuel as [|k IH]; intros a b; simpl.
  - destruct (String.eqb_spec a b) as [->|_]; [now left | discriminate].
  - destruct (String.eqb_spec a b) as [->|_]; [now left |].
    intros Hex. apply existsb_exists in Hex as (e & Hin & He).
    destruct (String.eqb_spec (source_node e) a) as [<-|_];
      [| discriminate].
    right. destruct (IH _ _ He) as [<- | Hp].
    + now apply path_edge.
    + now apply path_step.
Qed.

(** Without two edges into one input, at most one edge ends there. *)
Lemma incoming_none (n p : string) :
  ~ In (n, p) (map target_of es) -> incoming es n p = [].
Proof.
  unfold incoming. induction es as [|e l IH]; simpl; [reflexivity |].
  intros Hnot. unfold targets at 1.
  destruct (String.eqb_spec (target_node e) n) as [Hn|_];
    destruct (String.eqb_spec (target_port e) p) as [Hp|_]; simpl;
    try (apply IH; tauto).
  exfalso. apply Hnot. left. unfold target_of. now rewrite Hn, Hp.
Qed.

End Paths.

Lemma fan_in_free (es : list Edge) :
  NoDup (map target_of es) ->
  forall n p, (length (incoming es n p) <= 1)%nat.
Proof.
  induction es as [|e l IH]; simpl; intros Hnd n p; [lia |].
  inversion Hnd as [|x xs Hnot Hrest]; subst.
  destruct (targets e n p) eqn:Ht.
  - unfold targets in Ht. apply andb_true_iff in Ht as [Hn Hp].
    apply String.eqb_eq in Hn, Hp.
    change (filter (fun e0 => targets e0 n p) l) with (incoming l n p).
    rewrite incoming_none; [simpl; lia |].
    unfold target_of in Hnot. now rewrite Hn, Hp in Hnot.
  - now apply IH.
Qed.

Lemma recorded_edges_ranked :
  Forall (fun e => (rank (source_node e) < rank (target_node e))%nat)
    recorded_edges.
Proof.
  unfold recorded_edges. repeat constructor.
Qed.

Lemma recorded_edges_targets_nodup : NoDup (map target_of recorded_edges).
Proof.
  unfold recorded_edges, target_of. simpl.
  repeat (constructor; [simpl; intuition discriminate |]).
  constructor.
Qed.

(** ** What the built graph publishes *)

Section Published.

Variable validator : string -> string.
Variable detector : string -> Z * list bool.
Variable averager : string -> list bool -> string.

(** [skip_vols] is the wrapped function applied to the fed count and the
    detector's [n_dummy] on the raw series. *)
Lemma skip_vols_published (s : string) (m : bool) (name : string)
  (user : option Z) :
  run validator detector averager
  (feed_dummy_scans (built (Some s) m name) user) "skip_vols"
  = (r <- reconcile_skip_volumes user (fst (detector s)) ;;
     ok (VInt r)).
Proof.
  destruct user; reflexivity.
Qed.

(** [algo_dummy_scans] is the detector's [n_dummy], whatever was fed. *)
Lemma algo_dummy_scans_published (s : string) (m : bool) (name : string)
  (user : option Z) :
  run validator detector averager
  (feed_dummy_scans (built (Some s) m name) user) "algo_dummy_scans"
  = inr (VInt (fst (detector s))).
Proof.
  reflexivity.
Qed.



End Published.


Lemma reconcile_present (u d : Z) :
  reconcile_skip_volumes (Some u) d = inr u.
Proof.
  reflexivity.
Qed.

(** ** The reconciliation node *)

(** C1: a present, non-negative [user_declared] is returned unchanged
    whatever was detected (zero included), an absent one yields the detected
    count; in the built graph this is the function wrapped by the
    [calc_dummy_scans] node, whose only incoming edges come from
    [inputnode.dummy_scans] and from the detector's [n_dummy], and the
    graph publishes its result as [skip_vols]. *)
Theorem user_declared_is_authoritative (u d : Z) (Hu : 0 <= u) :
  reconcile_skip_volumes (Some u) d = inr u /\
  reconcile_skip_volumes None d = inr d /\
  wrapped_function "pass_dummy_scans" = Some reconcile_skip_volumes /\
  (forall bold_file multiecho name,
      valid_name name = true ->
      exists wf,
        init_raw_boldref_wf bold_file multiecho name = inr wf /\
        find_node (nodes wf) "calc_dummy_scans" = Some calc_dummy_scans /\
        interface calc_dummy_scans
        = Function "pass_dummy_scans" ["skip_vols_num"] /\
        find_node (nodes wf) "get_dummy" = Some get_dummy /\
        interface get_dummy = NonsteadyStatesDetector /\
        filter (fun e => (target_node e =? "calc_dummy_scans")%string)
          (edges wf)
        = [ mkEdge "inputnode" "dummy_scans" "calc_dummy_scans" "dummy_scans";
            mkEdge "get_dummy" "n_dummy" "calc_dummy_scans" "algo_dummy_scans" ]) /\
  (forall validator detector averager s multiecho name,
      valid_name name = true ->
      exists wf,
        init_raw_boldref_wf (Some s) multiecho name = inr wf /\
        run validator detector averager
          (feed_dummy_scans wf (Some u)) "skip_vols" = inr (VInt u) /\
        run validator detector averager
          (feed_dummy_scans wf None) "skip_vols"
        = inr (VInt (fst (detector s)))).
Proof.
  split; [apply reconcile_present |].
  split; [reflexivity |].
  split; [reflexivity |].
  split.
  - intros bold_file multiecho name Hname. eexists.
    split; [now apply init_raw_boldref_wf_built |].
    destruct bold_file; repeat split; reflexivity.
  - intros validator detector averager s multiecho name Hname. eexists.
    split; [now apply init_raw_boldref_wf_built |].
    rewrite !skip_vols_published.
    rewrite reconcile_present. split; reflexivity.
Qed.

Lemma user_declared_is_authoritative_witness :
  0 <= 0 /\
  valid_name default_name = true /\
  reconcile_skip_volumes (Some 0) 12 = inr 0 /\
  reconcile_skip_volumes None 12 = inr 12 /\
  exists wf,
    init_raw_boldref_wf (Some "scan.ext") false default_name = inr wf /\
    run (fun f => f) (fun _ => (12, [])) (fun f _ => f)
      (feed_dummy_scans wf (Some 0)) "skip_vols" = inr (VInt 0).
Proof.
  split; [lia |].
  split; [reflexivity |].
  destruct (user_declared_is_authoritative 0 12 (Z.le_refl 0))
    as (Hsome & Hnone & _ & _ & Hrun).
  split; [exact Hsome |].
  split; [exact Hnone |].
  destruct (Hrun (fun f => f) (fun _ : string => (12, @nil bool))
              (fun f _ => f) "scan.ext" false default_name eq_refl)
    as (wf & Hwf & Hskip & _).
  exists wf. split; [exact Hwf | exact Hskip].
Defined.




(** ** Data flow between the collaborators *)

(** C2, as stated, fails: in the graph built for [bold_file = "scan.ext"],
    no edge leads from the validator to the detector. *)
Lemma detector_consumes_validated_fails :
  exists wf,
    init_raw_boldref_wf (Some "scan.ext") false default_name = inr wf /\
    ~ detector_consumes_validated wf.
Proof.
  eexists. split; [now apply init_raw_boldref_wf_built |].
  intros (e & Hin & Hsrc & Htgt).
  simpl in Hin.
  repeat (destruct Hin as [<- | Hin]; [discriminate |]).
  exact Hin.
Qed.

(** C2, amended: the detector's only input edge comes from the input
    boundary's [bold_file], as does the validator's, so both read the raw
    series side by side; the averager takes the validator's [out_file] and
    the detector's [t_mask]; no edge leads from the validator to the
    detector, and when run the detector is applied to the raw path. *)
Theorem detector_consumes_raw_bold_file (bold_file : option string)
  (multiecho : bool) (name : string)
  (Hname : valid_name name = true) :
  exists wf,
    init_raw_boldref_wf bold_file multiecho name = inr wf /\
    filter (fun e => (target_node e =? "get_dummy")%string) (edges wf)
    = [ mkEdge "inputnode" "bold_file" "get_dummy" "in_file" ] /\
    filter (fun e => (target_node e =? "val_bold")%string) (edges wf)
    = [ mkEdge "inputnode" "bold_file" "val_bold" "in_file" ] /\
    filter (fun e => (target_node e =? "gen_avg")%string) (edges wf)
    = [ mkEdge "val_bold" "out_file" "gen_avg" "in_file";
        mkEdge "get_dummy" "t_mask" "gen_avg" "t_mask" ] /\
    ~ detector_consumes_validated wf /\
    forall validator detector averager s,
      output_value validator detector averager 3
        (set_input wf "inputnode" "bold_file" (VStr s)) "get_dummy" "n_dummy"
      = inr (VInt (fst (detector s))).
Proof.
  eexists. split; [now apply init_raw_boldref_wf_built |].
  split; [reflexivity |].
  split; [reflexivity |].
  split; [reflexivity |].
  split.
  - intros (e & Hin & Hsrc & Htgt).
    simpl in Hin.
    repeat (destruct Hin as [<- | Hin]; [discriminate |]).
    exact Hin.
  - intros validator detector averager s.
    destruct bold_file; reflexivity.
Qed.

Lemma detector_consumes_raw_bold_file_witness :
  valid_name default_name = true /\
  exists wf,
    init_raw_boldref_wf (Some "scan.ext") false default_name = inr wf /\
    filter (fun e => (target_node e =? "get_dummy")%string) (edges wf)
    = [ mkEdge "inputnode" "bold_file" "get_dummy" "in_file" ].
Proof.
  split; [reflexivity |].
  destruct (detector_consumes_raw_bold_file
              (Some "scan.ext") false default_name eq_refl)
    as (wf & Hwf & Hdet & _).
  exists wf. split; assumption.
Defined.

(** C4: with [bold_file] given at construction and [dummy_scans] fed as
    [None], a detector reporting [n] makes the graph publish
    [skip_vols = n] and [algo_dummy_scans = n]; whatever count the user
    feeds, [algo_dummy_scans] still carries the detector's [n]. *)
Theorem algo_dummy_scans_reported_unchanged
  (validator : string -> string) (detector : string -> Z * list bool)
  (averager : string -> list bool -> string)
  (s : string) (multiecho : bool) (name : string) (n : Z)
  (Hdet : fst (detector s) = n) (Hname : valid_name name = true) :
  exists wf,
    init_raw_boldref_wf (Some s) multiecho name = inr wf /\
    run validator detector averager (feed_dummy_scans wf None) "skip_vols"
    = inr (VInt n) /\
    run validator detector averager
      (feed_dummy_scans wf None) "algo_dummy_scans"
    = inr (VInt n) /\
    forall user,
      run validator detector averager
        (feed_dummy_scans wf user) "algo_dummy_scans"
      = inr (VInt n).
Proof.
  eexists. split; [now apply init_raw_boldref_wf_built |].
  rewrite skip_vols_published. subst n.
  split; [reflexivity |].
  split; [apply algo_dummy_scans_published |].
  intros user. apply algo_dummy_scans_published.
Qed.

Lemma algo_dummy_scans_reported_unchanged_witness :
  fst ((fun _ : string => (4, [false; false; false; false; true])) "scan.ext")
  = 4 /\
  valid_name default_name = true /\
  exists wf,
    init_raw_boldref_wf (Some "scan.ext") false default_name = inr wf /\
    run (fun f => f) (fun _ => (4, [false; false; false; false; true]))
      (fun f _ => f) (feed_dummy_scans wf None) "skip_vols"
    = inr (VInt 4) /\
    run (fun f => f) (fun _ => (4, [false; false; false; false; true]))
      (fun f _ => f) (feed_dummy_scans wf None) "algo_dummy_scans"
    = inr (VInt 4) /\
    forall user,
      run (fun f => f) (fun _ => (4, [false; false; false; false; true]))
        (fun f _ => f) (feed_dummy_scans wf user) "algo_dummy_scans"
      = inr (VInt 4).
Proof.
  split; [reflexivity |].
  split; [reflexivity |].
  apply (algo_dummy_scans_reported_unchanged
           (fun f => f) (fun _ => (4, [false; false; false; false; true]))
           (fun f _ => f) "scan.ext" false default_name 4);
    reflexivity.
Defined.

(** ** Boundary nodes *)

(** C5: in every built graph the input boundary declares exactly the ports
    [bold_file] and [dummy_scans], the output boundary exactly [bold_file],
    [boldref], [skip_vols] and [algo_dummy_scans], and each of these four
    is the target of one edge whose source is a computing node (not a
    passthrough). *)
Theorem boundary_ports_declared_and_bound (bold_file : option string)
  (multiecho : bool) (name : string)
  (Hname : valid_name name = true) :
  exists wf nin nout,
    init_raw_boldref_wf bold_file multiecho name = inr wf /\
    find_node (nodes wf) "inputnode" = Some nin /\
    declared_inputs (interface nin) = Some ["bold_file"; "dummy_scans"] /\
    declared_outputs (interface nin) = Some ["bold_file"; "dummy_scans"] /\
    find_node (nodes wf) "outputnode" = Some nout /\
    declared_inputs (interface nout)
    = Some ["bold_file"; "boldref"; "skip_vols"; "algo_dummy_scans"] /\
    declared_outputs (interface nout)
    = Some ["bold_file"; "boldref"; "skip_vols"; "algo_dummy_scans"] /\
    Forall
      (fun p =>
         exists e src,
           incoming (edges wf) "outputnode" p = [e] /\
           find_node (nodes wf) (source_node e) = Some src /\
           computes (interface src) = true)
      ["bold_file"; "boldref"; "skip_vols"; "algo_dummy_scans"].
Proof.
  exists (built bold_file multiecho name), (inputnode bold_file), outputnode.
  split; [now apply init_raw_boldref_wf_built |].
  destruct bold_file; (repeat split; try reflexivity);
    repeat (constructor; [do 2 eexists; repeat split; reflexivity |]);
    constructor.
Qed.

Lemma boundary_ports_declared_and_bound_witness :
  valid_name default_name = true /\
  exists wf nin,
    init_raw_boldref_wf (Some "scan.ext") false default_name = inr wf /\
    find_node (nodes wf) "inputnode" = Some nin /\
    declared_inputs (interface nin) = Some ["bold_file"; "dummy_scans"].
Proof.
  split; [reflexivity |].
  destruct (boundary_ports_declared_and_bound
              (Some "scan.ext") false default_name eq_refl)
    as (wf & nin & nout & Hwf & Hin & Hdecl & _).
  exists wf, nin. repeat split; assumption.
Defined.

(** ** Reachability and acyclicity *)

Lemma recorded_path (a b : string) :
  a <> b ->
  reachable (length recorded_edges) recorded_edges a b = true ->
  path recorded_edges a b.
Proof.
  intros Hne Hr. apply reachable_sound in Hr as [Heq | Hp]; [| exact Hp].
  contradiction.
Qed.

(** C6: in every built graph each declared output port is reached by a
    directed path of edges from the input boundary, and no directed path
    leads from a node back to itself. *)
Theorem outputs_reachable_and_acyclic (bold_file : option string)
  (multiecho : bool) (name : string)
  (Hname : valid_name name = true) :
  exists wf,
    init_raw_boldref_wf bold_file multiecho name = inr wf /\
    Forall (fun p => port_reachable wf "inputnode" "outputnode" p)
      ["bold_file"; "boldref"; "skip_vols"; "algo_dummy_scans"] /\
    path (edges wf) "inputnode" "outputnode" /\
    forall n, ~ path (edges wf) n n.
Proof.
  exists (built bold_file multiecho name).
  split; [now apply init_raw_boldref_wf_built |].
  split; [| split].
  - repeat constructor.
    + exists (mkEdge "val_bold" "out_file" "outputnode" "bold_file").
      split; [simpl; tauto |]. split; [reflexivity |].
      apply recorded_path; [discriminate | reflexivity].
    + exists (mkEdge "gen_avg" "out_file" "outputnode" "boldref").
      split; [simpl; tauto |]. split; [reflexivity |].
      apply recorded_path; [discriminate | reflexivity].
    + exists (mkEdge "calc_dummy_scans" "skip_vols_num" "outputnode" "skip_vols").
      split; [simpl; tauto |]. split; [reflexivity |].
      apply recorded_path; [discriminate | reflexivity].
    + exists (mkEdge "get_dummy" "n_dummy" "outputnode" "algo_dummy_scans").
      split; [simpl; tauto |]. split; [reflexivity |].
      apply recorded_path; [discriminate | reflexivity].
  - apply recorded_path; [discriminate | reflexivity].
  - apply (ranked_acyclic recorded_edges rank recorded_edges_ranked).
Qed.

Lemma outputs_reachable_and_acyclic_witness :
  valid_name default_name = true /\
  exists wf,
    init_raw_boldref_wf None false default_name = inr wf /\
    path (edges wf) "inputnode" "outputnode" /\
    forall n, ~ path (edges wf) n n.
Proof.
  split; [reflexivity |].
  destruct (outputs_reachable_and_acyclic None false default_name eq_refl)
    as (wf & Hwf & _ & Hpath & Hacyclic).
  exists wf. repeat split; assumption.
Defined.

(** ** Fan-in and fan-out *)

(** C7: in every built graph at most one edge ends at any given input port
    of any given node, while the validator's [out_file] fans out to both
    the averager and the output boundary. *)
Theorem fan_in_forbidden_fan_out_allowed (bold_file : option string)
  (multiecho : bool) (name : string)
  (Hname : valid_name name = true) :
  exists wf,
    init_raw_boldref_wf bold_file multiecho name = inr wf /\
    (forall n p, (length (incoming (edges wf) n p) <= 1)%nat) /\
    NoDup (map target_of (edges wf)) /\
    outgoing (edges wf) "val_bold" "out_file"
    = [ mkEdge "val_bold" "out_file" "gen_avg" "in_file";
        mkEdge "val_bold" "out_file" "outputnode" "bold_file" ].
Proof.
  exists (built bold_file multiecho name).
  split; [now apply init_raw_boldref_wf_built |].
  split; [| split].
  - apply fan_in_free, recorded_edges_targets_nodup.
  - apply recorded_edges_targets_nodup.
  - reflexivity.
Qed.

Lemma fan_in_forbidden_fan_out_allowed_witness :
  valid_name default_name = true /\
  exists wf,
    init_raw_boldref_wf None false default_name = inr wf /\
    forall n p, (length (incoming (edges wf) n p) <= 1)%nat.
Proof.
  split; [reflexivity |].
  destruct (fan_in_forbidden_fan_out_allowed None false default_name eq_refl)
    as (wf & Hwf & Hfan & _).
  exists wf. split; assumption.
Defined.

(** ** Construction arguments *)

(** C8: two graphs built with the same [bold_file] and [name] and opposite
    [multiecho] flags have the same nodes (names, interfaces and their port
    names, presets, hints), the same edges and the same name; only the
    description differs, by the phrase about the shortest echo. *)
Theorem multiecho_only_changes_description (bold_file : option string)
  (name : string) (Hname : valid_name name = true) :
  exists wf0 wf1,
    init_raw_boldref_wf bold_file false name = inr wf0 /\
    init_raw_boldref_wf bold_file true name = inr wf1 /\
    nodes wf0 = nodes wf1 /\
    edges wf0 = edges wf1 /\
    wf_name wf0 = wf_name wf1 /\
    desc wf0 <> desc wf1 /\
    desc wf0
    = "First, a reference volume was generated," ++ nl
      ++ "using a custom methodology of *fMRIPrep*, for use in head motion correction."
      ++ nl /\
    desc wf1
    = "First, a reference volume was generated from the shortest echo of the BOLD run,"
      ++ nl
      ++ "using a custom methodology of *fMRIPrep*, for use in head motion correction."
      ++ nl.
Proof.
  exists (built bold_file false name), (built bold_file true name).
  split; [now apply init_raw_boldref_wf_built |].
  split; [now apply init_raw_boldref_wf_built |].
  repeat split.
  apply String.eqb_neq. reflexivity.
Qed.

Lemma multiecho_only_changes_description_witness :
  valid_name default_name = true /\
  exists wf0 wf1,
    init_raw_boldref_wf None false default_name = inr wf0 /\
    init_raw_boldref_wf None true default_name = inr wf1 /\
    nodes wf0 = nodes wf1 /\
    edges wf0 = edges wf1 /\
    desc wf0 <> desc wf1.
Proof.
  split; [reflexivity |].
  destruct (multiecho_only_changes_description None default_name eq_refl)
    as (wf0 & wf1 & H0 & H1 & Hnodes & Hedges & _ & Hdesc & _).
  exists wf0, wf1. repeat split; assumption.
Defined.

(** C9: a [bold_file] passed at construction is preset on the input
    boundary's [bold_file] port, which amounts to setting that port on the
    graph built without it; without it the input boundary has no preset;
    nodes other than the input boundary, edges, name and description are
    the same in both graphs. *)
Theorem bold_file_presets_inputnode (b : string) (multiecho : bool)
  (name : string) (Hname : valid_name name = true) :
  exists wf0 wf1 n0 n1,
    init_raw_boldref_wf None multiecho name = inr wf0 /\
    init_raw_boldref_wf (Some b) multiecho name = inr wf1 /\
    find_node (nodes wf0) "inputnode" = Some n0 /\
    find_node (nodes wf1) "inputnode" = Some n1 /\
    inputs n0 = [] /\
    lookup_input n0 "bold_file" = None /\
    inputs n1 = [("bold_file", VStr b)] /\
    lookup_input n1 "bold_file" = Some (VStr b) /\
    wf1 = set_input wf0 "inputnode" "bold_file" (VStr b) /\
    filter (fun n => negb (node_name n =? "inputnode")%string) (nodes wf1)
    = filter (fun n => negb (node_name n =? "inputnode")%string) (nodes wf0) /\
    map node_name (nodes wf1) = map node_name (nodes wf0) /\
    interface n1 = interface n0 /\
    edges wf1 = edges wf0 /\
    desc wf1 = desc wf0 /\
    wf_name wf1 = wf_name wf0.
Proof.
  exists (built None multiecho name), (built (Some b) multiecho name),
    (inputnode None), (inputnode (Some b)).
  split; [now apply init_raw_boldref_wf_built |].
  split; [now apply init_raw_boldref_wf_built |].
  repeat split.
Qed.

Lemma bold_file_presets_inputnode_witness :
  valid_name default_name = true /\
  exists wf0 wf1,
    init_raw_boldref_wf None false default_name = inr wf0 /\
    init_raw_boldref_wf (Some "scan.ext") false default_name = inr wf1 /\
    wf1 = set_input wf0 "inputnode" "bold_file" (VStr "scan.ext").
Proof.
  split; [reflexivity |].
  destruct (bold_file_presets_inputnode "scan.ext" false default_name eq_refl)
    as (wf0 & wf1 & n0 & n1 & H0 & H1 & _ & _ & _ & _ & _ & _ & Hset & _).
  exists wf0, wf1. repeat split; assumption.
Defined.

(** * Further properties of the wiring *)

Lemma rank_le_3 (n : string) : (rank n <= 3)%nat.
Proof.
  unfold rank.
  repeat match goal with
         | |- context [(n =? ?s)%string] => destruct (n =? s)%string
         end; lia.
Qed.

(** A path starts with an edge that either ends it or is followed by a
    path. *)
Lemma path_first_edge (es : list Edge) (a b : string) :
  path es a b ->
  exists e, In e es /\ source_node e = a /\
            (target_node e = b \/ path es (target_node e) b).
Proof.
  intros Hp. destruct Hp as [e Hin | e c Hin Hrest].
  - exists e. auto.
  - exists e. auto.
Qed.

Lemma no_path_from_outputnode (n : string) :
  ~ path recorded_edges "outputnode" n.
Proof.
  intros Hp.
  apply (path_rank recorded_edges rank recorded_edges_ranked) in Hp.
  pose proof (rank_le_3 n) as Hle.
  change (rank "outputnode") with 3%nat in Hp. lia.
Qed.

Lemma no_path_into_inputnode (n : string) :
  ~ path recorded_edges n "inputnode".
Proof.
  intros Hp.
  apply (path_rank recorded_edges rank recorded_edges_ranked) in Hp.
  change (rank "inputnode") with 0%nat in Hp. lia.
Qed.

(** The [name] argument only names the workflow: two graphs built with
    different names that the constructor accepts have the same nodes (the node names are fixed), the
    same edges and the same description, and each carries its own name. *)
Theorem name_only_names_the_workflow (bold_file : option string)
  (multiecho : bool) (name1 name2 : string)
  (Hname1 : valid_name name1 = true) (Hname2 : valid_name name2 = true) :
  exists wf1 wf2,
    init_raw_boldref_wf bold_file multiecho name1 = inr wf1 /\
    init_raw_boldref_wf bold_file multiecho name2 = inr wf2 /\
    wf_name wf1 = name1 /\
    wf_name wf2 = name2 /\
    nodes wf1 = nodes wf2 /\
    edges wf1 = edges wf2 /\
    desc wf1 = desc wf2.
Proof.
  exists (built bold_file multiecho name1), (built bold_file multiecho name2).
  split; [now apply init_raw_boldref_wf_built |].
  split; [now apply init_raw_boldref_wf_built |].
  repeat split.
Qed.

Lemma name_only_names_the_workflow_witness :
  valid_name default_name = true /\
  valid_name "bold_ref-2" = true /\
  exists wf1 wf2,
    init_raw_boldref_wf None false default_name = inr wf1 /\
    init_raw_boldref_wf None false "bold_ref-2" = inr wf2 /\
    nodes wf1 = nodes wf2 /\
    edges wf1 = edges wf2.
Proof.
  split; [reflexivity |].
  split; [reflexivity |].
  destruct (name_only_names_the_workflow None false default_name "bold_ref-2"
              eq_refl eq_refl)
    as (wf1 & wf2 & H1 & H2 & _ & _ & Hnodes & Hedges & _).
  exists wf1, wf2. repeat split; assumption.
Defined.

(** The six nodes created by the function all end up in the graph under
    pairwise distinct names, every edge starts and ends at one of them,
    and none of them is left unwired. *)
Theorem nodes_distinct_and_all_wired (bold_file : option string)
  (multiecho : bool) (name : string)
  (Hname : valid_name name = true) :
  exists wf,
    init_raw_boldref_wf bold_file multiecho name = inr wf /\
    length (nodes wf) = 6%nat /\
    NoDup (map node_name (nodes wf)) /\
    Forall (fun e => endpoints_in (nodes wf) e = true) (edges wf) /\
    Forall (fun n => node_wired (edges wf) (node_name n) = true) (nodes wf).
Proof.
  exists (built bold_file multiecho name).
  split; [now apply init_raw_boldref_wf_built |].
  split; [reflexivity |].
  split; [| split].
  - destruct bold_file; simpl;
      repeat (constructor; [simpl; intuition discriminate |]);
      constructor.
  - destruct bold_file; repeat constructor.
  - destruct bold_file; repeat constructor.
Qed.

Lemma nodes_distinct_and_all_wired_witness :
  valid_name default_name = true /\
  exists wf,
    init_raw_boldref_wf None false default_name = inr wf /\
    length (nodes wf) = 6%nat /\
    NoDup (map node_name (nodes wf)).
Proof.
  split; [reflexivity |].
  destruct (nodes_distinct_and_all_wired None false default_name eq_refl)
    as (wf & Hwf & Hlen & Hnd & _).
  exists wf. repeat split; assumption.
Defined.

(** The input boundary is a pure source and the output boundary a pure
    sink: no edge ends at [inputnode], none leaves [outputnode], and no
    directed path leads into the former or out of the latter. *)
Theorem boundaries_are_source_and_sink (bold_file : option string)
  (multiecho : bool) (name : string)
  (Hname : valid_name name = true) :
  exists wf,
    init_raw_boldref_wf bold_file multiecho name = inr wf /\
    entering (edges wf) "inputnode" = [] /\
    leaving (edges wf) "outputnode" = [] /\
    (forall n, ~ path (edges wf) n "inputnode") /\
    (forall n, ~ path (edges wf) "outputnode" n).
Proof.
  exists (built bold_file multiecho name).
  split; [now apply init_raw_boldref_wf_built |].
  split; [reflexivity |].
  split; [reflexivity |].
  split.
  - apply no_path_into_inputnode.
  - apply no_path_from_outputnode.
Qed.

Lemma boundaries_are_source_and_sink_witness :
  valid_name default_name = true /\
  exists wf,
    init_raw_boldref_wf None false default_name = inr wf /\
    entering (edges wf) "inputnode" = [] /\
    leaving (edges wf) "outputnode" = [].
Proof.
  split; [reflexivity |].
  destruct (boundaries_are_source_and_sink None false default_name eq_refl)
    as (wf & Hwf & Hin & Hout & _).
  exists wf. repeat split; assumption.
Defined.

(** Both declared inputs are consumed: exactly three edges leave
    [inputnode]; [bold_file] goes to the validator and to the detector,
    [dummy_scans] to the reconciliation node only. *)
Theorem declared_inputs_all_consumed (bold_file : option string)
  (multiecho : bool) (name : string)
  (Hname : valid_name name = true) :
  exists wf,
    init_raw_boldref_wf bold_file multiecho name = inr wf /\
    leaving (edges wf) "inputnode"
    = (outgoing (edges wf) "inputnode" "bold_file"
       ++ outgoing (edges wf) "inputnode" "dummy_scans")%list /\
    map target_of (outgoing (edges wf) "inputnode" "bold_file")
    = [ ("val_bold", "in_file"); ("get_dummy", "in_file") ] /\
    map target_of (outgoing (edges wf) "inputnode" "dummy_scans")
    = [ ("calc_dummy_scans", "dummy_scans") ].
Proof.
  exists (built bold_file multiecho name).
  split; [now apply init_raw_boldref_wf_built |].
  repeat split.
Qed.

Lemma declared_inputs_all_consumed_witness :
  valid_name default_name = true /\
  exists wf,
    init_raw_boldref_wf None false default_name = inr wf /\
    map target_of (outgoing (edges wf) "inputnode" "bold_file")
    = [ ("val_bold", "in_file"); ("get_dummy", "in_file") ] /\
    map target_of (outgoing (edges wf) "inputnode" "dummy_scans")
    = [ ("calc_dummy_scans", "dummy_scans") ].
Proof.
  split; [reflexivity |].
  destruct (declared_inputs_all_consumed None false default_name eq_refl)
    as (wf & Hwf & _ & Hbold & Hdummy).
  exists wf. repeat split; assumption.
Defined.

(** The wiring only names fields that exist: every edge joins two nodes of
    the graph, and wherever the field list of an end is declared in this
    file (the two boundary nodes and the output of the function node) the
    edge's port is one of the declared names. *)
Theorem wiring_uses_declared_fields (bold_file : option string)
  (multiecho : bool) (name : string)
  (Hname : valid_name name = true) :
  exists wf,
    init_raw_boldref_wf bold_file multiecho name = inr wf /\
    forall e, In e (edges wf) ->
      exists src dst,
        find_node (nodes wf) (source_node e) = Some src /\
        find_node (nodes wf) (target_node e) = Some dst /\
        (forall l, declared_outputs (interface src) = Some l ->
                   In (source_port e) l) /\
        (forall l, declared_inputs (interface dst) = Some l ->
                   In (target_port e) l).
Proof.
  exists (built bold_file multiecho name).
  split; [now apply init_raw_boldref_wf_built |].
  intros e Hin. simpl in Hin.
  destruct bold_file;
    repeat (destruct Hin as [<- | Hin];
            [ do 2 eexists;
              split; [reflexivity |]; split; [reflexivity |];
              split; intros l Hl; cbv in Hl; try discriminate Hl;
              injection Hl as <-; simpl; auto 10 |]);
    contradiction.
Qed.

Lemma wiring_uses_declared_fields_witness :
  valid_name default_name = true /\
  exists wf,
    init_raw_boldref_wf None false default_name = inr wf /\
    forall e, In e (edges wf) ->
      exists src dst,
        find_node (nodes wf) (source_node e) = Some src /\
        find_node (nodes wf) (target_node e) = Some dst /\
        (forall l, declared_outputs (interface src) = Some l ->
                   In (source_port e) l) /\
        (forall l, declared_inputs (interface dst) = Some l ->
                   In (target_port e) l).
Proof.
  split; [reflexivity |].
  exact (wiring_uses_declared_fields None false default_name eq_refl).
Defined.

(** No node computes in vain: each of the four computing nodes lies on a
    directed path from the input boundary and on one to the output
    boundary. *)
Theorem computing_nodes_between_boundaries (bold_file : option string)
  (multiecho : bool) (name : string)
  (Hname : valid_name name = true) :
  exists wf,
    init_raw_boldref_wf bold_file multiecho name = inr wf /\
    Forall (fun n => path (edges wf) "inputnode" n /\
                     path (edges wf) n "outputnode")
      (filter (fun n => negb (mem_str n ["inputnode"; "outputnode"]))
         (map node_name (nodes wf))).
Proof.
  exists (built bold_file multiecho name).
  split; [now apply init_raw_boldref_wf_built |].
  destruct bold_file; simpl;
    repeat (constructor;
            [split; apply recorded_path; (discriminate || reflexivity) |]);
    constructor.
Qed.

Lemma computing_nodes_between_boundaries_witness :
  valid_name default_name = true /\
  exists wf,
    init_raw_boldref_wf None false default_name = inr wf /\
    Forall (fun n => path (edges wf) "inputnode" n /\
                     path (edges wf) n "outputnode")
      (filter (fun n => negb (mem_str n ["inputnode"; "outputnode"]))
         (map node_name (nodes wf))).
Proof.
  split; [reflexivity |].
  exact (computing_nodes_between_boundaries None false default_name eq_refl).
Defined.

(** The user's count touches nothing but [skip_vols]: the reconciliation
    node's single outgoing edge ends at [outputnode.skip_vols], so every
    directed path from it ends at the output boundary and none reaches the
    averager, the validator or the detector. *)
Theorem dummy_scans_reaches_only_skip_vols (bold_file : option string)
  (multiecho : bool) (name : string)
  (Hname : valid_name name = true) :
  exists wf,
    init_raw_boldref_wf bold_file multiecho name = inr wf /\
    map target_of (leaving (edges wf) "calc_dummy_scans")
    = [ ("outputnode", "skip_vols") ] /\
    (forall n, path (edges wf) "calc_dummy_scans" n -> n = "outputnode") /\
    Forall (fun n => ~ path (edges wf) "calc_dummy_scans" n)
      [ "gen_avg"; "val_bold"; "get_dummy" ].
Proof.
  exists (built bold_file multiecho name).
  split; [now apply init_raw_boldref_wf_built |].
  split; [reflexivity |].
  assert (Honly : forall n,
             path recorded_edges "calc_dummy_scans" n -> n = "outputnode").
  { intros n Hp.
    apply path_first_edge in Hp as (e & Hin & Hsrc & Hend).
    simpl in Hin.
    repeat (destruct Hin as [<- | Hin]; [try discriminate Hsrc |]);
      [| contradiction].
    simpl in Hend. destruct Hend as [<- | Hp]; [reflexivity |].
    now apply no_path_from_outputnode in Hp. }
  split; [exact Honly |].
  repeat constructor; intros Hp; apply Honly in Hp; discriminate Hp.
Qed.

Lemma dummy_scans_reaches_only_skip_vols_witness :
  valid_name default_name = true /\
  exists wf,
    init_raw_boldref_wf None false default_name = inr wf /\
    map target_of (leaving (edges wf) "calc_dummy_scans")
    = [ ("outputnode", "skip_vols") ] /\
    forall n, path (edges wf) "calc_dummy_scans" n -> n = "outputnode".
Proof.
  split; [reflexivity |].
  destruct (dummy_scans_reaches_only_skip_vols None false default_name eq_refl)
    as (wf & Hwf & Hleave & Honly & _).
  exists wf. repeat split; assumption.
Defined.

(** When the graph is run on a series [s], the published [bold_file] is the
    validator's output, [boldref] is the averager applied to the validated
    series and to the mask the detector computed on the raw series, and
    [algo_dummy_scans] is the detector's count; none of them depends on the
    [dummy_scans] fed, and presetting [bold_file] at construction or
    setting it on the input boundary afterwards gives the same outputs. *)
Theorem reference_ignores_dummy_scans
  (validator : string -> string) (detector : string -> Z * list bool)
  (averager : string -> list bool -> string)
  (s : string) (multiecho : bool) (name : string)
  (Hname : valid_name name = true) :
  exists wf wf0,
    init_raw_boldref_wf (Some s) multiecho name = inr wf /\
    init_raw_boldref_wf None multiecho name = inr wf0 /\
    forall user,
      let fed := feed_dummy_scans wf user in
      let fed0 :=
        feed_dummy_scans (set_input wf0 "inputnode" "bold_file" (VStr s))
          user in
      run validator detector averager fed "bold_file"
      = inr (VStr (validator s)) /\
      run validator detector averager fed "boldref"
      = inr (VStr (averager (validator s) (snd (detector s)))) /\
      run validator detector averager fed "algo_dummy_scans"
      = inr (VInt (fst (detector s))) /\
      map (run validator detector averager fed0)
        ["bold_file"; "boldref"; "skip_vols"; "algo_dummy_scans"]
      = map (run validator detector averager fed)
          ["bold_file"; "boldref"; "skip_vols"; "algo_dummy_scans"].
Proof.
  exists (built (Some s) multiecho name), (built None multiecho name).
  split; [now apply init_raw_boldref_wf_built |].
  split; [now apply init_raw_boldref_wf_built |].
  intros user. repeat split.
Qed.

Lemma reference_ignores_dummy_scans_witness :
  valid_name default_name = true /\
  exists wf,
    init_raw_boldref_wf (Some "scan.ext") false default_name = inr wf /\
    run (fun f => f) (fun _ => (4, [false; true])) (fun f _ => f)
      (feed_dummy_scans wf (Some 2)) "bold_file"
    = inr (VStr "scan.ext").
Proof.
  split; [reflexivity |].
  destruct (reference_ignores_dummy_scans
              (fun f => f) (fun _ : string => (4, [false; true]))
              (fun f _ => f) "scan.ext" false default_name eq_refl)
    as (wf & wf0 & Hwf & _ & Hall).
  exists wf. split; [exact Hwf |].
  destruct (Hall (Some 2)) as (Hbold & _). exact Hbold.
Defined.
